(** * HelloObject23: the self-scheduling countdown object

    A shallow embedding of [hello_object23.hh] / [hello_object23.cc] and of
    the part of the simulator host the object talks to (the clock, the
    event queue and the debug trace), followed by the properties of the
    countdown: what construction, [startup] and [processEvent] do to the
    counter and which scheduling calls they issue. *)

From Stdlib Require Import String.
From Stdlib Require Import Bool ZArith NArith List Lia.
From ExtLib Require Import Structures.Monad Structures.MonadState Structures.MonadExc.
From ExtLib Require Import Data.Monads.StateMonad Data.Monads.EitherMonad.
Import ListNotations.
Import MonadNotation.
Local Open Scope monad_scope.
#[local] Existing Instance Monad_stateT.

(** ** The C++ [int] of the counter *)

Module Cxx.

(** [int] is the 32-bit two's complement type of the hosts gem5 builds on;
    [INT_MIN] is its least value. *)
Definition INT_MIN : Z := - 2 ^ 31.

End Cxx.

(** ** The host side *)

(** Modelled from the spec: the type [Tick] is declared by the host's headers,
    which are not among the sources.  The spec describes a tick as the host's
    indivisible unit of simulated time and a requested time as an absolute
    time on the host's time axis; the model takes the natural numbers. *)
Definition Tick : Type := N.

(** The three [DPRINTF(HelloExample, ...)] lines of [hello_object23.cc]. *)
Inductive DebugLine : Type :=
| CreatedTheHelloObject                (* "Created the hello object\n" *)
| HelloWorldProcessing (remaining : Z) (* "Hello world! Processing the event! %d left\n" *)
| DoneFiring.                          (* "Done firing!\n" *)

(** What the object asks of the host, in program order.  A [Dprintf] entry is
    a [DPRINTF] statement the object executed; whether the host prints the
    line depends on its [HelloExample] debug flag, which the object does not
    see and the trace does not record. *)
Inductive Action : Type :=
| Schedule (when : Tick)               (* schedule(event, when) *)
| Dprintf (line : DebugLine).          (* DPRINTF(HelloExample, line) *)

(** Modelled from the spec: the host's clock and event queue (sim/eventq.hh is
    not among the sources).  [now] is the current host time, [pending] the
    requested times of the callbacks registered for the object and not yet
    delivered, oldest registration first, and [trace] every call the object
    has made into the host so far. *)
Record Host : Type := mkHost {
  now : Tick;
  pending : list Tick;
  trace : list Action
}.

(** ** The object *)

(** [HelloObject23Params]: the parameter bundle; the name is all the
    constructor reads from it (through [SimObject::name()]). *)
Record HelloObject23Params : Type := mkParams {
  name : String.string
}.

(** [EventFunctionWrapper event]: the handle of the callback.  Its closure is
    fixed ([processEvent] of the owning object); what remains is the name. *)
Record EventFunctionWrapper : Type := mkEvent {
  event_name : String.string
}.

(** The data members of [class HelloObject23]. *)
Record HelloObject23 : Type := mkHelloObject23 {
  event : EventFunctionWrapper;
  latency : Tick;                      (* const Tick latency; *)
  timesLeft : Z                        (* int timesLeft; *)
}.

(** One object in its host. *)
Record Sim : Type := mkSim {
  host : Host;
  this : HelloObject23
}.

(** ** The monad of member functions: state [Sim], failure [error] *)

Inductive error : Type :=
| UndefinedBehaviour                   (* signed overflow of an [int] *)
| NothingPending                       (* the host has no callback to deliver *)
| TooEarly.                            (* delivery before the requested time *)

Definition M : Type -> Type := stateT Sim (sum error).

Definition run {A : Type} (c : M A) (s : Sim) : error + (A * Sim) := runStateT c s.

Definition with_host (f : Host -> Host) (s : Sim) : Sim :=
  mkSim (f (host s)) (this s).

Definition with_timesLeft (z : Z) (s : Sim) : Sim :=
  mkSim (host s) (mkHelloObject23 (event (this s)) (latency (this s)) z).

(** Modelled from the spec: [curTick()], the current host time. *)
Definition curTick : M Tick :=
  s <- get ;; ret (now (host s)).

Definition host_schedule (when : Tick) (h : Host) : Host :=
  mkHost (now h) (pending h ++ [when]) (trace h ++ [Schedule when]).

Definition host_dprintf (line : DebugLine) (h : Host) : Host :=
  mkHost (now h) (pending h) (trace h ++ [Dprintf line]).

(** Modelled from the spec: [schedule(event, when)] registers the callback for
    the absolute time [when]; it returns nothing and the host delivers the
    callbacks of one object in the order they were registered. *)
Definition schedule (when : Tick) : M unit :=
  modify (with_host (host_schedule when)) ;; ret tt.

(** [DPRINTF(HelloExample, ...)]: the statement is recorded on the trace,
    whether or not the host's [HelloExample] flag lets the line be printed. *)
Definition DPRINTF (line : DebugLine) : M unit :=
  modify (with_host (host_dprintf line)) ;; ret tt.

(** [timesLeft--] as a statement.  C++ leaves the result undefined when the
    value is [INT_MIN]. *)
Definition timesLeft_decrement : M unit :=
  s <- get ;;
  if (Cxx.INT_MIN <? timesLeft (this s))%Z
  then put (with_timesLeft (timesLeft (this s) - 1) s)
  else raise UndefinedBehaviour.

Definition read_timesLeft : M Z :=
  s <- get ;; ret (timesLeft (this s)).

Definition read_latency : M Tick :=
  s <- get ;; ret (latency (this s)).

(** ** The member functions of [hello_object23.cc] *)

(** [HelloObject23::HelloObject23(const HelloObject23Params &params)] *)
Definition HelloObject23_ctor (params : HelloObject23Params) (h : Host) : Sim :=
  mkSim (host_dprintf CreatedTheHelloObject h)
        (mkHelloObject23 (mkEvent (name params)) 100%N 10%Z).

(** [void HelloObject23::processEvent()] *)
Definition processEvent : M unit :=
  timesLeft_decrement ;;
  remaining <- read_timesLeft ;;
  DPRINTF (HelloWorldProcessing remaining) ;;
  if (remaining <=? 0)%Z then
    DPRINTF DoneFiring
  else
    t <- curTick ;;
    d <- read_latency ;;
    schedule (t + d)%N.

(** [void HelloObject23::startup()] *)
Definition startup : M unit :=
  d <- read_latency ;;
  schedule d.

(** ** The host driving the object *)

Definition deliver (t : Tick) (rest : list Tick) (h : Host) : Host :=
  mkHost t rest (trace h).

(** Modelled from the spec: the host delivers the oldest pending callback at a
    time [t] at or after the time requested for it; the callback is no longer
    pending while it runs, and the host time during the call is [t].  The time
    [t] is not compared with the current host time: when the pending request
    is not in the past, a delivery that is on time also moves the clock
    forward, and a statement that depends on that says so. *)
Definition fire (t : Tick) : M unit :=
  s <- get ;;
  match pending (host s) with
  | [] => raise NothingPending
  | when :: rest =>
      if (when <=? t)%N
      then put (with_host (deliver t rest) s) ;; processEvent
      else raise TooEarly
  end.

(** Modelled from the spec: the callback is invoked by the host at the
    previously scheduled time. *)
Definition serviceOne : M unit :=
  s <- get ;;
  match pending (host s) with
  | [] => raise NothingPending
  | when :: _ => fire when
  end.

(** [n] deliveries in a row, each at its requested time. *)
Fixpoint simulate (n : nat) : M unit :=
  match n with
  | O => ret tt
  | S n' => serviceOne ;; simulate n'
  end.

(** Deliveries at the times the host chooses. *)
Fixpoint fire_all (ts : list Tick) : M unit :=
  match ts with
  | [] => ret tt
  | t :: ts' => fire t ;; fire_all ts'
  end.

(** The host before any object exists: time zero, nothing pending. *)
Definition boot : Host := mkHost 0%N [] [].

(** ** Reading the trace *)

Fixpoint schedule_calls (tr : list Action) : list Tick :=
  match tr with
  | [] => []
  | Schedule when :: tr' => when :: schedule_calls tr'
  | Dprintf _ :: tr' => schedule_calls tr'
  end.

(** The counter values the callback handed to [DPRINTF], one per invocation. *)
Fixpoint reported (tr : list Action) : list Z :=
  match tr with
  | [] => []
  | Dprintf (HelloWorldProcessing z) :: tr' => z :: reported tr'
  | _ :: tr' => reported tr'
  end.

(** ** Runs of the countdown *)

(** The host delivers each callback of [ts], in order, no earlier than it was
    requested: the first request is for [w], and a callback that runs at [t]
    asks for the next one at [t + d]. *)
Fixpoint on_time (d w : Tick) (ts : list Tick) : bool :=
  match ts with
  | [] => true
  | t :: ts' => (w <=? t)%N && on_time d (t + d)%N ts'
  end.

(** The request left pending after deliveries at [ts], none of them the last
    of the countdown. *)
Fixpoint next_request (d w : Tick) (ts : list Tick) : Tick :=
  match ts with
  | [] => w
  | t :: ts' => next_request d (t + d)%N ts'
  end.

(** The host time after deliveries at [ts]. *)
Definition clock_after (t0 : Tick) (ts : list Tick) : Tick :=
  fold_left (fun _ t => t) ts t0.

(** What deliveries at [ts] add to the trace while the counter, [c] before
    them, stays above zero: one report and one request each. *)
Fixpoint again_trace (c : Z) (d : Tick) (ts : list Tick) : list Action :=
  match ts with
  | [] => []
  | t :: ts' =>
      Dprintf (HelloWorldProcessing (c - 1)) :: Schedule (t + d)%N
        :: again_trace (c - 1) d ts'
  end.

(** What the last delivery of a countdown adds to the trace. *)
Definition done_trace : list Action :=
  [Dprintf (HelloWorldProcessing 0); Dprintf DoneFiring].

(** The times of [n] deliveries by a host that is never late: [w], [w + d],
    [w + 2 d], ... *)
Fixpoint firing_times (n : nat) (w d : Tick) : list Tick :=
  match n with
  | O => []
  | S n' => w :: firing_times n' (w + d)%N d
  end.

(** [n - 1], [n - 2], ..., [0]. *)
Fixpoint countdown (n : nat) : list Z :=
  match n with
  | O => []
  | S n' => Z.of_nat n' :: countdown n'
  end.

(** ** The life of an object in its host *)

(** The states of an object after activation: the host calls [startup] once,
    on the state [s0] the constructor left, and from then on only delivers
    callbacks, each at a time of its choice. *)
Inductive running (s0 : Sim) : Sim -> Prop :=
| running_startup (s1 : Sim) :
    run startup s0 = inr (tt, s1) -> running s0 s1
| running_fire (s s' : Sim) (t : Tick) :
    running s0 s -> run (fire t) s = inr (tt, s') -> running s0 s'.

Definition reachable (s0 s : Sim) : Prop := s = s0 \/ running s0 s.

(** The two states of the spec's state machine. *)
Definition Active (s : Sim) : Prop :=
  (0 < timesLeft (this s))%Z /\ exists w, pending (host s) = [w].

Definition Done (s : Sim) : Prop :=
  (timesLeft (this s) <= 0)%Z /\ pending (host s) = [].

(** What the host can make of a state by delivering callbacks. *)
Inductive later : Sim -> Sim -> Prop :=
| later_now (s : Sim) : later s s
| later_fire (s s' s'' : Sim) (t : Tick) :
    later s s' -> run (fire t) s' = inr (tt, s'') -> later s s''.

(** ** Some objects *)

Definition hello : HelloObject23Params := mkParams "hello"%string.

(** The object of the sources, built at time zero. *)
Definition hello_at_boot : Sim := HelloObject23_ctor hello boot.

(** An object that has not been activated and whose counter holds the least
    [int]. *)
Definition hello_at_int_min : Sim :=
  mkSim boot (mkHelloObject23 (mkEvent "hello"%string) 100%N Cxx.INT_MIN).

(** ** More readings of the trace and of a run *)

(** How often the statement [DPRINTF(HelloExample, "Done firing!\n")] was
    executed. *)
Fixpoint done_lines (tr : list Action) : nat :=
  match tr with
  | [] => O
  | Dprintf DoneFiring :: tr' => S (done_lines tr')
  | _ :: tr' => done_lines tr'
  end.

(** [hi - 1], [hi - 2], ..., [hi - k]. *)
Fixpoint descending (hi : Z) (k : nat) : list Z :=
  match k with
  | O => []
  | S k' => (hi - 1)%Z :: descending (hi - 1) k'
  end.

(** ** How the member functions run *)

Section Equations.

Variable s : Sim.

Let h := host s.
Let o := this s.
Let c := timesLeft o.

Lemma run_startup :
  run startup s = inr (tt, with_host (host_schedule (latency o)) s).
Proof. reflexivity. Qed.

Lemma run_processEvent_undefined :
  (c <= Cxx.INT_MIN)%Z -> run processEvent s = inl UndefinedBehaviour.
Proof.
  intros Hc. unfold run, processEvent, timesLeft_decrement. simpl.
  destruct (Z.ltb_spec Cxx.INT_MIN (timesLeft (this s))); [subst c o; lia | reflexivity].
Qed.

Lemma run_processEvent_done :
  (Cxx.INT_MIN < c)%Z -> (c - 1 <= 0)%Z ->
  run processEvent s =
    inr (tt, with_host (host_dprintf DoneFiring)
               (with_host (host_dprintf (HelloWorldProcessing (c - 1)))
                  (with_timesLeft (c - 1) s))).
Proof.
  intros Hc Hd. unfold run, processEvent, timesLeft_decrement. simpl.
  destruct (Z.ltb_spec Cxx.INT_MIN (timesLeft (this s))); [| subst c o; lia].
  simpl. destruct (Z.leb_spec (timesLeft (this s) - 1) 0); [reflexivity | subst c o; lia].
Qed.

Lemma run_processEvent_again :
  (0 < c - 1)%Z ->
  run processEvent s =
    inr (tt, with_host (host_schedule (now h + latency o)%N)
               (with_host (host_dprintf (HelloWorldProcessing (c - 1)))
                  (with_timesLeft (c - 1) s))).
Proof.
  intros Hd. unfold run, processEvent, timesLeft_decrement. simpl.
  destruct (Z.ltb_spec Cxx.INT_MIN (timesLeft (this s)));
    [| subst c o; unfold Cxx.INT_MIN in *; lia].
  simpl. destruct (Z.leb_spec (timesLeft (this s) - 1) 0); [subst c o; lia | reflexivity].
Qed.

End Equations.

Lemma run_bind {A B : Type} (c : M A) (k : A -> M B) (s : Sim) :
  run (x <- c ;; k x) s =
    match run c s with
    | inl e => inl e
    | inr (a, s') => run (k a) s'
    end.
Proof.
  unfold run. simpl. destruct (runStateT c s) as [e | [a s']]; reflexivity.
Qed.

Lemma run_fire_nothing (s : Sim) (t : Tick) :
  pending (host s) = [] -> run (fire t) s = inl NothingPending.
Proof. intros Hp. unfold run, fire. simpl. rewrite Hp. reflexivity. Qed.

Lemma run_fire_early (s : Sim) (t when : Tick) (rest : list Tick) :
  pending (host s) = when :: rest -> (t < when)%N -> run (fire t) s = inl TooEarly.
Proof.
  intros Hp Ht. unfold run, fire. simpl. rewrite Hp.
  destruct (N.leb_spec when t); [lia | reflexivity].
Qed.

Lemma run_fire (s : Sim) (t when : Tick) (rest : list Tick) :
  pending (host s) = when :: rest -> (when <= t)%N ->
  run (fire t) s = run processEvent (with_host (deliver t rest) s).
Proof.
  intros Hp Ht. unfold run, fire. cbn -[processEvent]. rewrite Hp.
  destruct (N.leb_spec when t); [reflexivity | lia].
Qed.

Lemma run_serviceOne (s : Sim) (when : Tick) (rest : list Tick) :
  pending (host s) = when :: rest -> run serviceOne s = run (fire when) s.
Proof. intros Hp. unfold run, serviceOne. cbn -[fire]. rewrite Hp. reflexivity. Qed.

Lemma run_serviceOne_nothing (s : Sim) :
  pending (host s) = [] -> run serviceOne s = inl NothingPending.
Proof. intros Hp. unfold run, serviceOne. simpl. rewrite Hp. reflexivity. Qed.

(** ** One delivery *)

Section Delivery.

Variables (s : Sim) (t when : Tick) (rest : list Tick).
Hypothesis Hpending : pending (host s) = when :: rest.
Hypothesis Hdue : (when <= t)%N.

Let c := timesLeft (this s).
Let d := latency (this s).

Lemma fire_undefined :
  (c <= Cxx.INT_MIN)%Z -> run (fire t) s = inl UndefinedBehaviour.
Proof.
  intros Hc. rewrite (run_fire s t when rest Hpending Hdue).
  apply run_processEvent_undefined. exact Hc.
Qed.

Lemma fire_done :
  (Cxx.INT_MIN < c)%Z -> (c - 1 <= 0)%Z ->
  run (fire t) s =
    inr (tt, mkSim (mkHost t rest
                      (trace (host s)
                         ++ [Dprintf (HelloWorldProcessing (c - 1)); Dprintf DoneFiring]))
                   (mkHelloObject23 (event (this s)) d (c - 1))).
Proof.
  intros Hc Hd. rewrite (run_fire s t when rest Hpending Hdue).
  rewrite run_processEvent_done by assumption.
  unfold with_host, with_timesLeft, host_dprintf, deliver. simpl.
  rewrite <- app_assoc. reflexivity.
Qed.

Lemma fire_again :
  (0 < c - 1)%Z ->
  run (fire t) s =
    inr (tt, mkSim (mkHost t (rest ++ [(t + d)%N])
                      (trace (host s)
                         ++ [Dprintf (HelloWorldProcessing (c - 1)); Schedule (t + d)%N]))
                   (mkHelloObject23 (event (this s)) d (c - 1))).
Proof.
  intros Hd. rewrite (run_fire s t when rest Hpending Hdue).
  rewrite run_processEvent_again by assumption.
  unfold with_host, with_timesLeft, host_dprintf, host_schedule, deliver. simpl.
  rewrite <- app_assoc. reflexivity.
Qed.

End Delivery.

(** Every delivery that returns is one of the two above. *)
Lemma fire_inv (s s' : Sim) (t : Tick) :
  run (fire t) s = inr (tt, s') ->
  exists when rest,
    pending (host s) = when :: rest /\ (when <= t)%N /\
    (Cxx.INT_MIN < timesLeft (this s))%Z /\
    this s' = mkHelloObject23 (event (this s)) (latency (this s)) (timesLeft (this s) - 1) /\
    now (host s') = t /\
    ((timesLeft (this s) - 1 <= 0)%Z /\
       pending (host s') = rest /\
       trace (host s') =
         trace (host s)
           ++ [Dprintf (HelloWorldProcessing (timesLeft (this s) - 1)); Dprintf DoneFiring]
     \/
     (0 < timesLeft (this s) - 1)%Z /\
       pending (host s') = rest ++ [(t + latency (this s))%N] /\
       trace (host s') =
         trace (host s)
           ++ [Dprintf (HelloWorldProcessing (timesLeft (this s) - 1));
               Schedule (t + latency (this s))%N]).
Proof.
  intros Hrun.
  destruct (pending (host s)) as [| when rest] eqn:Hp.
  - rewrite run_fire_nothing in Hrun by assumption. discriminate.
  - destruct (N.leb_spec when t) as [Hdue | Hearly].
    2:{ rewrite (run_fire_early s t when rest) in Hrun by assumption. discriminate. }
    destruct (Z.ltb_spec Cxx.INT_MIN (timesLeft (this s))) as [Hc | Hc].
    2:{ rewrite (fire_undefined s t when rest) in Hrun by assumption. discriminate. }
    exists when, rest. repeat (split; [solve [auto] |]).
    destruct (Z.leb_spec (timesLeft (this s) - 1) 0) as [Hd | Hd].
    + rewrite (fire_done s t when rest) in Hrun by assumption.
      injection Hrun as <-. simpl. auto 6.
    + rewrite (fire_again s t when rest) in Hrun by assumption.
      injection Hrun as <-. simpl. auto 6.
Qed.

(** ** Several deliveries *)

Lemma run_fire_all_app (ts1 ts2 : list Tick) (s : Sim) :
  run (fire_all (ts1 ++ ts2)) s =
    match run (fire_all ts1) s with
    | inl e => inl e
    | inr (_, s') => run (fire_all ts2) s'
    end.
Proof.
  revert s. induction ts1 as [| t ts1 IH]; intros s.
  - reflexivity.
  - cbn [app fire_all]. rewrite !run_bind.
    destruct (run (fire t) s) as [e | [[] s1]]; [reflexivity | apply IH].
Qed.

Lemma on_time_app (d w : Tick) (ts1 ts2 : list Tick) :
  on_time d w (ts1 ++ ts2) = on_time d w ts1 && on_time d (next_request d w ts1) ts2.
Proof.
  revert w. induction ts1 as [| t ts1 IH]; intros w; simpl.
  - reflexivity.
  - rewrite IH. apply andb_assoc.
Qed.

Lemma on_time_firing_times (n : nat) (w d : Tick) :
  on_time d w (firing_times n w d) = true.
Proof.
  revert w. induction n as [| n IH]; intros w; simpl.
  - reflexivity.
  - rewrite N.leb_refl. apply IH.
Qed.

Lemma length_firing_times (n : nat) (w d : Tick) : length (firing_times n w d) = n.
Proof. revert w. induction n as [| n IH]; intros w; simpl; [| rewrite IH]; reflexivity. Qed.

Lemma length_countdown (n : nat) : length (countdown n) = n.
Proof. induction n as [| n IH]; simpl; [| rewrite IH]; reflexivity. Qed.

Lemma schedule_calls_app (tr1 tr2 : list Action) :
  schedule_calls (tr1 ++ tr2) = schedule_calls tr1 ++ schedule_calls tr2.
Proof.
  induction tr1 as [| [when | line] tr1 IH]; simpl; [| rewrite IH |]; auto.
Qed.

Lemma reported_app (tr1 tr2 : list Action) :
  reported (tr1 ++ tr2) = reported tr1 ++ reported tr2.
Proof.
  induction tr1 as [| [when | [| z |]] tr1 IH]; simpl; try rewrite IH; auto.
Qed.

(** While the counter stays above zero, deliveries that are on time all
    return, and each leaves one request pending. *)
Lemma fire_all_again (ts : list Tick) :
  forall (s : Sim) (w : Tick),
    pending (host s) = [w] ->
    on_time (latency (this s)) w ts = true ->
    (Z.of_nat (length ts) < timesLeft (this s))%Z ->
    run (fire_all ts) s =
      inr (tt, mkSim (mkHost (clock_after (now (host s)) ts)
                        [next_request (latency (this s)) w ts]
                        (trace (host s)
                           ++ again_trace (timesLeft (this s)) (latency (this s)) ts))
                     (mkHelloObject23 (event (this s)) (latency (this s))
                        (timesLeft (this s) - Z.of_nat (length ts)))).
Proof.
  induction ts as [| t ts IH]; intros s w Hp Hon Hc.
  - destruct s as [[n p tr] [e d c]]. simpl in *. subst p.
    rewrite app_nil_r, Z.sub_0_r. reflexivity.
  - cbn [fire_all]. rewrite run_bind.
    simpl in Hon. apply andb_prop in Hon as [Hdue Hon]. apply N.leb_le in Hdue.
    cbn [length] in Hc.
    rewrite (fire_again s t w [] Hp Hdue) by lia.
    rewrite (IH _ (t + latency (this s))%N); cbn [host this pending latency timesLeft app];
      [| reflexivity | exact Hon | lia].
    cbn [now trace event clock_after fold_left next_request again_trace length].
    rewrite <- app_assoc. cbn [app].
    do 4 f_equal. lia.
Qed.

(** A countdown from [length ts + 1]: the deliveries at [ts] each ask for one
    more, the delivery at [t] is the last. *)
Lemma fire_all_countdown (ts : list Tick) (t : Tick) (s : Sim) (w : Tick) :
  pending (host s) = [w] ->
  on_time (latency (this s)) w (ts ++ [t]) = true ->
  timesLeft (this s) = Z.of_nat (S (length ts)) ->
  run (fire_all (ts ++ [t])) s =
    inr (tt, mkSim (mkHost t []
                      (trace (host s)
                         ++ again_trace (timesLeft (this s)) (latency (this s)) ts
                         ++ done_trace))
                   (mkHelloObject23 (event (this s)) (latency (this s)) 0)).
Proof.
  intros Hp Hon Hc.
  rewrite on_time_app in Hon. apply andb_prop in Hon as [Hon Hlast].
  simpl in Hlast. rewrite andb_true_r in Hlast. apply N.leb_le in Hlast.
  rewrite run_fire_all_app, (fire_all_again ts s w Hp Hon) by lia.
  cbn [fire_all]. rewrite run_bind.
  erewrite fire_done; [| reflexivity | exact Hlast | | ];
    cbn [host this timesLeft]; unfold Cxx.INT_MIN; try lia.
  cbn [trace event latency run]. rewrite <- app_assoc. unfold done_trace.
  replace (timesLeft (this s) - Z.of_nat (length ts) - 1)%Z with 0%Z by lia.
  reflexivity.
Qed.

Lemma schedule_calls_again (c : Z) (d : Tick) (ts : list Tick) :
  schedule_calls (again_trace c d ts) = map (fun t => (t + d)%N) ts.
Proof.
  revert c. induction ts as [| t ts IH]; intros c; simpl; [| rewrite IH]; reflexivity.
Qed.

Lemma reported_again (d : Tick) (ts : list Tick) (m : nat) :
  reported (again_trace (Z.of_nat (length ts + m)) d ts) ++ countdown m =
  countdown (length ts + m).
Proof.
  induction ts as [| t ts IH]; [reflexivity |].
  cbn [length Nat.add again_trace reported countdown app].
  replace (Z.of_nat (S (length ts + m)) - 1)%Z with (Z.of_nat (length ts + m)) by lia.
  rewrite IH. reflexivity.
Qed.

Lemma reported_countdown (d : Tick) (ts : list Tick) :
  reported (again_trace (Z.of_nat (S (length ts))) d ts ++ done_trace) =
  countdown (S (length ts)).
Proof.
  rewrite reported_app. change (reported done_trace) with (countdown 1).
  replace (S (length ts)) with (length ts + 1)%nat by lia.
  apply reported_again.
Qed.

(** A host that is never late is one choice of delivery times. *)
Lemma simulate_nothing (n : nat) (ts : list Tick) (s : Sim) :
  pending (host s) = [] -> length ts = n ->
  run (simulate n) s = run (fire_all ts) s.
Proof.
  intros Hp Hn. destruct ts as [| t ts]; subst n; [reflexivity |].
  cbn [length simulate fire_all]. rewrite !run_bind.
  rewrite run_serviceOne_nothing, run_fire_nothing by assumption. reflexivity.
Qed.

Lemma simulate_as_fire_all (n : nat) :
  forall (s : Sim) (w : Tick),
    pending (host s) = [w] ->
    run (simulate n) s = run (fire_all (firing_times n w (latency (this s)))) s.
Proof.
  induction n as [| n IH]; intros s w Hp; [reflexivity |].
  cbn [simulate firing_times fire_all]. rewrite !run_bind.
  rewrite (run_serviceOne s w [] Hp).
  destruct (Z.ltb_spec Cxx.INT_MIN (timesLeft (this s))) as [Hc | Hc].
  2:{ rewrite (fire_undefined s w w [] Hp (N.le_refl w) Hc). reflexivity. }
  destruct (Z.leb_spec (timesLeft (this s) - 1) 0) as [Hd | Hd].
  - rewrite (fire_done s w w [] Hp (N.le_refl w) Hc Hd).
    apply simulate_nothing; [reflexivity | apply length_firing_times].
  - rewrite (fire_again s w w [] Hp (N.le_refl w) Hd).
    match goal with
    | |- run _ ?s1 = _ => exact (IH s1 (w + latency (this s))%N eq_refl)
    end.
Qed.

(** ** The life of an object *)

Lemma later_counter (s s' : Sim) :
  later s s' -> (timesLeft (this s') <= timesLeft (this s))%Z.
Proof.
  induction 1 as [s | s s' s'' t _ IH Hfire]; [lia |].
  apply fire_inv in Hfire as (when & rest & _ & _ & _ & Hthis & _).
  rewrite Hthis. simpl. lia.
Qed.

Lemma later_members (s s' : Sim) :
  later s s' ->
  latency (this s') = latency (this s) /\ event (this s') = event (this s).
Proof.
  induction 1 as [s | s s' s'' t _ [IHl IHe] Hfire]; [split; reflexivity |].
  apply fire_inv in Hfire as (when & rest & _ & _ & _ & Hthis & _).
  rewrite Hthis. simpl. split; assumption.
Qed.

Lemma later_nothing_pending (s s' : Sim) :
  pending (host s) = [] -> later s s' -> s' = s.
Proof.
  intros Hp. induction 1 as [s | s s' s'' t _ IH Hfire]; [reflexivity |].
  rewrite (IH Hp) in Hfire. rewrite run_fire_nothing in Hfire by assumption.
  discriminate.
Qed.

Lemma running_later (s0 s : Sim) :
  running s0 s <-> exists s1, run startup s0 = inr (tt, s1) /\ later s1 s.
Proof.
  split.
  - induction 1 as [s1 Hs | s s' t _ (s1 & Hs & Hl) Hfire].
    + exists s1. split; [exact Hs | constructor].
    + exists s1. split; [exact Hs | econstructor; eassumption].
  - intros (s1 & Hs & Hl). induction Hl as [s1 | s1 s s' t _ IH Hfire].
    + constructor. exact Hs.
    + econstructor; [apply IH; exact Hs | exact Hfire].
Qed.

Lemma later_first (s s1 s' : Sim) (t : Tick) :
  run (fire t) s = inr (tt, s1) -> later s1 s' -> later s s'.
Proof.
  intros Hfire. induction 1 as [s1 | s1 s2 s3 t' _ IH Hfire'].
  - econstructor; [constructor | exact Hfire].
  - econstructor; [apply IH; exact Hfire | exact Hfire'].
Qed.

(** The runs of [fire_all] are sequences of deliveries. *)
Lemma later_fire_all (ts : list Tick) (s s' : Sim) :
  run (fire_all ts) s = inr (tt, s') -> later s s'.
Proof.
  revert s. induction ts as [| t ts IH]; intros s Hrun.
  - injection Hrun as <-. constructor.
  - cbn [fire_all] in Hrun. rewrite run_bind in Hrun.
    destruct (run (fire t) s) as [e | [[] s1]] eqn:Hfire; [discriminate |].
    apply (later_first s s1 s' t Hfire). apply IH. exact Hrun.
Qed.

Lemma running_fire_all (ts : list Tick) (s0 s : Sim) :
  run (startup ;; fire_all ts) s0 = inr (tt, s) -> running s0 s.
Proof.
  intros Hrun. rewrite run_bind, run_startup in Hrun.
  apply running_later. eexists. split; [apply run_startup |].
  apply (later_fire_all ts). exact Hrun.
Qed.

(** After activation an object that started with a positive counter is in one
    of the two states of the state machine, and its counter never leaves the
    range from zero to its initial value. *)
Lemma running_state (s0 s : Sim) :
  pending (host s0) = [] ->
  (0 < timesLeft (this s0))%Z ->
  running s0 s ->
  (Active s \/ Done s) /\ (0 <= timesLeft (this s) <= timesLeft (this s0))%Z.
Proof.
  intros Hp Hc. induction 1 as [s1 Hs | s s' t _ [Hstate Hrange] Hfire].
  - rewrite run_startup in Hs. injection Hs as <-. unfold Active. simpl. rewrite Hp.
    split; [left; split; [exact Hc | eexists; reflexivity] | lia].
  - apply fire_inv in Hfire as (when & rest & Hps & _ & _ & Hthis & _ & Hcase).
    destruct Hstate as [[Hpos [w Hw]] | [_ Hnone]]; [| congruence].
    rewrite Hw in Hps. injection Hps as <- <-.
    rewrite Hthis. cbn [timesLeft].
    destruct Hcase as [(Hle & Hp' & _) | (Hgt & Hp' & _)].
    + split; [right | lia]. split; [rewrite Hthis; simpl; lia | exact Hp'].
    + split; [left | lia]. split; [rewrite Hthis; simpl; lia |].
      eexists. rewrite Hp'. reflexivity.
Qed.

(** * Properties *)

(** ** Construction and activation *)

(** C7: construction stores the delay (100) and the initial counter (10) and
    issues no scheduling call: the host's pending callbacks and the scheduling
    calls on its trace are what they were.  The first scheduling call is the
    one [startup] makes. *)
Theorem ctor_stores_and_schedules_nothing (p : HelloObject23Params) (h : Host) :
  let s0 := HelloObject23_ctor p h in
  latency (this s0) = 100%N /\
  timesLeft (this s0) = 10%Z /\
  pending (host s0) = pending h /\
  schedule_calls (trace (host s0)) = schedule_calls (trace h) /\
  now (host s0) = now h /\
  exists s1,
    run startup s0 = inr (tt, s1) /\
    schedule_calls (trace (host s1)) = schedule_calls (trace h) ++ [100%N].
Proof.
  cbv zeta. repeat split.
  - cbn. rewrite schedule_calls_app, app_nil_r. reflexivity.
  - eexists. split; [apply run_startup |].
    cbn. rewrite !schedule_calls_app. cbn. rewrite app_nil_r. reflexivity.
Qed.



(** ** One invocation of the callback *)

(** C9, as stated, fails: when the counter holds the least [int], the
    decrement has no defined result, so the invocation does not leave the
    counter one lower. *)
Lemma processEvent_int_min_undefined :
  (timesLeft (this hello_at_int_min) <= 0)%Z /\
  run processEvent hello_at_int_min = inl UndefinedBehaviour /\
  ~ (exists s',
       run processEvent hello_at_int_min = inr (tt, s') /\
       timesLeft (this s') = (timesLeft (this hello_at_int_min) - 1)%Z).
Proof.
  split; [| split].
  - vm_compute. discriminate.
  - vm_compute. reflexivity.
  - intros (s' & Hrun & _). vm_compute in Hrun. discriminate.
Qed.

(** C9, amended: every invocation of the callback with a counter above the
    least [int] decrements the counter by exactly 1, whether or not the
    counter was already at or below zero; when it was, the counter becomes
    more negative and no callback is scheduled. *)
Theorem processEvent_decrements (s : Sim) :
  (Cxx.INT_MIN < timesLeft (this s))%Z ->
  exists s',
    run processEvent s = inr (tt, s') /\
    timesLeft (this s') = (timesLeft (this s) - 1)%Z /\
    ((timesLeft (this s) <= 0)%Z ->
       (timesLeft (this s') < timesLeft (this s))%Z /\
       pending (host s') = pending (host s) /\
       schedule_calls (trace (host s')) = schedule_calls (trace (host s))).
Proof.
  intros Hc.
  destruct (Z.leb_spec (timesLeft (this s) - 1) 0) as [Hd | Hd].
  - eexists. split; [apply run_processEvent_done; assumption |].
    cbn. rewrite !schedule_calls_app. cbn. rewrite !app_nil_r.
    repeat split; lia.
  - eexists. split; [apply run_processEvent_again; assumption |].
    cbn. split; [reflexivity | lia].
Qed.

Lemma processEvent_decrements_witness :
  exists s',
    run processEvent (mkSim boot (mkHelloObject23 (mkEvent "hello") 100%N (-3)%Z))
      = inr (tt, s') /\
    timesLeft (this s') = (-4)%Z.
Proof.
  destruct (processEvent_decrements
              (mkSim boot (mkHelloObject23 (mkEvent "hello") 100%N (-3)%Z)))
    as (s' & Hrun & Hc & _).
  - vm_compute. reflexivity.
  - exists s'. split; [exact Hrun | exact Hc].
Defined.

(** C4: a firing at host time [t] that leaves the counter above zero requests
    the next firing for [t] plus the delay: that time is the one scheduling
    call the firing makes, and the one request it adds to the pending ones. *)
Theorem next_firing_one_latency_later (s : Sim) (t when : Tick) (rest : list Tick) :
  pending (host s) = when :: rest ->
  (when <= t)%N ->
  (0 < timesLeft (this s) - 1)%Z ->
  exists s',
    run (fire t) s = inr (tt, s') /\
    now (host s') = t /\
    (0 < timesLeft (this s'))%Z /\
    pending (host s') = rest ++ [(t + latency (this s))%N] /\
    schedule_calls (trace (host s')) =
      schedule_calls (trace (host s)) ++ [(t + latency (this s))%N].
Proof.
  intros Hp Hdue Hc. eexists. split; [apply (fire_again s t when rest Hp Hdue Hc) |].
  cbn [host this now pending trace timesLeft].
  rewrite schedule_calls_app. repeat split; assumption.
Qed.

Lemma next_firing_one_latency_later_witness :
  exists s',
    run (startup ;; fire 130%N ;; fire 250%N) hello_at_boot = inr (tt, s') /\
    pending (host s') = [350%N].
Proof.
  destruct (next_firing_one_latency_later
              (mkSim (mkHost 130%N [230%N]
                        [Dprintf CreatedTheHelloObject; Schedule 100%N;
                         Dprintf (HelloWorldProcessing 9); Schedule 230%N])
                     (mkHelloObject23 (mkEvent "hello") 100%N 9%Z))
              250%N 230%N [])
    as (s' & Hrun & _ & _ & Hp & _).
  - reflexivity.
  - vm_compute. discriminate.
  - vm_compute. reflexivity.
  - exists s'. split; [| exact Hp]. rewrite <- Hrun. vm_compute. reflexivity.
Defined.

(** ** Whole countdowns *)

(** The constructor of the sources fixes the counter at 10 and the delay at
    100.  The statements of this section hold for every counter and delay, so
    they are about an arbitrary object with no callback pending, which is what
    an object is between construction and activation. *)

(** C1: for an object with initial counter N > 0 and no callback pending,
    activation followed by exactly N firings, at any times the host may pick
    for them, returns; the callback has then reported the N counter values
    N - 1, ..., 0, one decrement each, the counter is N lower and at most
    zero, exactly N scheduling calls were made in all (the one at activation
    and one per firing but the last), nothing is pending and the host has no
    further callback to deliver. *)
Theorem countdown_of_N_firings (s0 : Sim) (ts : list Tick) :
  pending (host s0) = [] ->
  (0 < timesLeft (this s0))%Z ->
  Z.of_nat (length ts) = timesLeft (this s0) ->
  on_time (latency (this s0)) (latency (this s0)) ts = true ->
  exists s',
    run (startup ;; fire_all ts) s0 = inr (tt, s') /\
    reported (trace (host s')) = reported (trace (host s0)) ++ countdown (length ts) /\
    timesLeft (this s') = (timesLeft (this s0) - Z.of_nat (length ts))%Z /\
    (timesLeft (this s') <= 0)%Z /\
    schedule_calls (trace (host s')) =
      schedule_calls (trace (host s0))
        ++ latency (this s0) :: map (fun t => (t + latency (this s0))%N) (removelast ts) /\
    length (schedule_calls (trace (host s'))) =
      (length (schedule_calls (trace (host s0))) + length ts)%nat /\
    pending (host s') = [] /\
    forall t, run (fire t) s' = inl NothingPending.
Proof.
  intros Hp Hpos Hlen Hon.
  destruct (exists_last (l := ts)) as (ts' & t & ->); [intros ->; simpl in Hlen; lia |].
  rewrite length_app in Hlen |- *. cbn [length] in Hlen |- *.
  rewrite removelast_last.
  pose (s1 := with_host (host_schedule (latency (this s0))) s0).
  assert (Hrun : run (startup ;; fire_all (ts' ++ [t])) s0 = run (fire_all (ts' ++ [t])) s1).
  { rewrite run_bind, run_startup. reflexivity. }
  rewrite (fire_all_countdown ts' t s1 (latency (this s0))) in Hrun;
    [| cbn; rewrite Hp; reflexivity | exact Hon | cbn [s1 with_host this]; lia].
  eexists. split; [exact Hrun |].
  cbn [s1 with_host host_schedule host this trace pending timesLeft latency event].
  rewrite <- Hlen.
  replace (Z.of_nat (length ts' + 1)) with (Z.of_nat (S (length ts'))) by lia.
  repeat split.
  - rewrite reported_app, (reported_countdown _ ts'), reported_app.
    cbn [reported]. rewrite app_nil_r.
    replace (length ts' + 1)%nat with (S (length ts')) by lia. reflexivity.
  - lia.
  - lia.
  - rewrite <- !app_assoc, !schedule_calls_app, schedule_calls_again. cbn.
    rewrite app_nil_r. reflexivity.
  - rewrite <- !app_assoc, !schedule_calls_app, schedule_calls_again. cbn.
    rewrite app_nil_r, !length_app. cbn. rewrite length_map. unfold Tick. lia.
Qed.

Lemma countdown_of_N_firings_witness :
  exists s',
    run (startup ;; fire_all (firing_times 10 100%N 100%N)) hello_at_boot = inr (tt, s') /\
    reported (trace (host s')) = [9; 8; 7; 6; 5; 4; 3; 2; 1; 0]%Z /\
    timesLeft (this s') = 0%Z /\
    length (schedule_calls (trace (host s'))) = 10%nat.
Proof.
  destruct (countdown_of_N_firings hello_at_boot (firing_times 10 100%N 100%N))
    as (s' & Hrun & Hrep & Hc & _ & _ & Hn & _).
  - reflexivity.
  - reflexivity.
  - reflexivity.
  - reflexivity.
  - exists s'. repeat split; assumption.
Defined.

Lemma firing_times_last (n : nat) (w d : Tick) :
  firing_times (S n) w d = firing_times n w d ++ [(w + N.of_nat n * d)%N].
Proof.
  revert w. induction n as [| n IH]; intros w.
  - cbn. f_equal. lia.
  - change (firing_times (S (S n)) w d) with (w :: firing_times (S n) (w + d)%N d).
    rewrite IH. cbn [firing_times app]. do 3 f_equal. lia.
Qed.

Lemma next_request_firing_times (k : nat) (w d : Tick) :
  next_request d w (firing_times k w d) = (w + N.of_nat k * d)%N.
Proof.
  revert w. induction k as [| k IH]; intros w.
  - cbn. lia.
  - cbn [firing_times next_request]. rewrite IH. lia.
Qed.

(** Before the counter of a positive countdown is used up, a host that is
    never late finds the object active. *)
Lemma simulate_before_the_end (s0 : Sim) (k : nat) :
  pending (host s0) = [] ->
  (Z.of_nat k < timesLeft (this s0))%Z ->
  exists sk,
    run (startup ;; simulate k) s0 = inr (tt, sk) /\
    timesLeft (this sk) = (timesLeft (this s0) - Z.of_nat k)%Z /\
    latency (this sk) = latency (this s0) /\
    pending (host sk) = [(latency (this s0) + N.of_nat k * latency (this s0))%N].
Proof.
  intros Hp Hk. pose (d := latency (this s0)).
  pose (s1 := with_host (host_schedule d) s0).
  assert (Hp1 : pending (host s1) = [d]) by (cbn; rewrite Hp; reflexivity).
  rewrite run_bind, run_startup. fold d s1.
  rewrite (simulate_as_fire_all k s1 d Hp1).
  rewrite (fire_all_again _ s1 d Hp1);
    [| apply on_time_firing_times | rewrite length_firing_times; exact Hk].
  eexists. split; [reflexivity |].
  cbn [this host timesLeft latency pending]. rewrite length_firing_times.
  change (latency (this s1)) with d.
  rewrite next_request_firing_times. repeat split.
Qed.

(** C8: for every initial counter N > 0, under a host that delivers each
    callback at its requested time, the counter is N - k and still positive
    after each of the first k < N firings, and exactly 0 after the N-th,
    which is the terminal one: nothing is pending after it. *)
Theorem terminal_counter_is_zero (s0 : Sim) :
  pending (host s0) = [] ->
  (0 < timesLeft (this s0))%Z ->
  (forall k : nat,
      (Z.of_nat k < timesLeft (this s0))%Z ->
      exists sk,
        run (startup ;; simulate k) s0 = inr (tt, sk) /\
        timesLeft (this sk) = (timesLeft (this s0) - Z.of_nat k)%Z /\
        (0 < timesLeft (this sk))%Z /\
        exists w, pending (host sk) = [w]) /\
  exists s',
    run (startup ;; simulate (Z.to_nat (timesLeft (this s0)))) s0 = inr (tt, s') /\
    timesLeft (this s') = 0%Z /\
    pending (host s') = [].
Proof.
  intros Hp Hpos. split.
  - intros k Hk.
    destruct (simulate_before_the_end s0 k Hp Hk) as (sk & Hrun & Hc & _ & Hpk).
    exists sk. repeat split; [exact Hrun | exact Hc | lia | eexists; exact Hpk].
  - pose (d := latency (this s0)).
    pose (s1 := with_host (host_schedule d) s0).
    assert (Hp1 : pending (host s1) = [d]) by (cbn; rewrite Hp; reflexivity).
    destruct (Z.to_nat (timesLeft (this s0))) as [| n] eqn:Hn; [lia |].
    rewrite run_bind, run_startup. fold d s1.
    rewrite (simulate_as_fire_all (S n) s1 d Hp1).
    change (latency (this s1)) with d.
    assert (Hon := on_time_firing_times (S n) d d).
    rewrite firing_times_last in Hon |- *.
    eexists. split.
    + apply (fire_all_countdown _ _ s1 d Hp1 Hon).
      rewrite length_firing_times. cbn [s1 with_host this]. lia.
    + split; reflexivity.
Qed.

Lemma terminal_counter_is_zero_witness :
  exists s',
    run (startup ;; simulate 10) hello_at_boot = inr (tt, s') /\
    timesLeft (this s') = 0%Z.
Proof.
  destruct (terminal_counter_is_zero hello_at_boot) as (_ & s' & Hrun & Hc & _).
  - reflexivity.
  - reflexivity.
  - exists s'. split; [exact Hrun | exact Hc].
Defined.

(** C5: the object of the sources (counter 10, delay 100), built at time
    zero, under a host that delivers each callback at its requested time.
    Activation schedules firing #1 at 100; for k from 1 to 9, firing #k runs at
    100 k, leaves the counter at 10 - k and schedules firing #(k+1) at
    100 (k+1); firing #10 runs at 1000, leaves the counter at 0 and schedules
    nothing; there is no firing #11. *)
Theorem hello_object23_scenario (p : HelloObject23Params) :
  let s0 := HelloObject23_ctor p boot in
  (exists s1,
      run startup s0 = inr (tt, s1) /\
      pending (host s1) = [100%N] /\ timesLeft (this s1) = 10%Z) /\
  (forall k : nat,
      (1 <= k < 10)%nat ->
      exists sk,
        run (startup ;; simulate k) s0 = inr (tt, sk) /\
        now (host sk) = (100 * N.of_nat k)%N /\
        timesLeft (this sk) = (10 - Z.of_nat k)%Z /\
        pending (host sk) = [(100 * (N.of_nat k + 1))%N] /\
        schedule_calls (trace (host sk)) = firing_times (S k) 100%N 100%N) /\
  (exists s10,
      run (startup ;; simulate 10) s0 = inr (tt, s10) /\
      now (host s10) = 1000%N /\
      timesLeft (this s10) = 0%Z /\
      pending (host s10) = [] /\
      schedule_calls (trace (host s10)) =
        [100; 200; 300; 400; 500; 600; 700; 800; 900; 1000]%N /\
      reported (trace (host s10)) = [9; 8; 7; 6; 5; 4; 3; 2; 1; 0]%Z) /\
  run (startup ;; simulate 11) s0 = inl NothingPending.
Proof.
  cbv zeta. split; [| split; [| split]].
  - eexists. split; [vm_compute; reflexivity | split; reflexivity].
  - intros k Hk.
    do 10 (destruct k as [| k];
           [first [lia | eexists; split; [vm_compute; reflexivity | repeat split]] |]).
    lia.
  - eexists. split; [vm_compute; reflexivity | repeat split].
  - vm_compute. reflexivity.
Qed.

Lemma hello_object23_scenario_witness :
  exists s3,
    run (startup ;; simulate 3) hello_at_boot = inr (tt, s3) /\
    now (host s3) = 300%N /\
    timesLeft (this s3) = 7%Z /\
    pending (host s3) = [400%N].
Proof.
  destruct (hello_object23_scenario hello) as (_ & Hk & _).
  destruct (Hk 3%nat) as (s3 & Hrun & Hnow & Hc & Hp & _).
  - lia.
  - exists s3. repeat split; assumption.
Defined.

(** C6, as stated, fails: for the initial counter [INT_MIN], which is at most
    zero, the decrement of the first firing has no defined result, so no
    firing, whenever delivered, returns with the counter at initial - 1. *)
Lemma int_min_counter_first_firing_undefined :
  (timesLeft (this hello_at_int_min) <= 0)%Z /\
  run (startup ;; serviceOne) hello_at_int_min = inl UndefinedBehaviour /\
  ~ (exists t s2,
       run (startup ;; fire t) hello_at_int_min = inr (tt, s2) /\
       timesLeft (this s2) = (timesLeft (this hello_at_int_min) - 1)%Z).
Proof.
  split; [| split].
  - vm_compute. discriminate.
  - vm_compute. reflexivity.
  - intros (t & s2 & Hrun & _). rewrite run_bind, run_startup in Hrun.
    apply fire_inv in Hrun as (_ & _ & _ & _ & Hc & _).
    vm_compute in Hc. discriminate.
Qed.

(** C6, amended: for an object whose initial counter is at most zero and
    above the least [int], activation still schedules a callback (nothing
    guards against such a counter); the first firing decrements the counter
    to initial - 1 and leaves the object in the terminal state Done without
    a further scheduling call, so exactly one firing occurs in total. *)
Theorem nonpositive_counter_fires_once (s0 : Sim) (t : Tick) :
  pending (host s0) = [] ->
  (Cxx.INT_MIN < timesLeft (this s0) <= 0)%Z ->
  (latency (this s0) <= t)%N ->
  exists s1 s2,
    run startup s0 = inr (tt, s1) /\
    pending (host s1) = [latency (this s0)] /\
    run (fire t) s1 = inr (tt, s2) /\
    timesLeft (this s2) = (timesLeft (this s0) - 1)%Z /\
    Done s2 /\
    schedule_calls (trace (host s2)) =
      schedule_calls (trace (host s0)) ++ [latency (this s0)] /\
    reported (trace (host s2)) =
      reported (trace (host s0)) ++ [(timesLeft (this s0) - 1)%Z] /\
    forall t', run (fire t') s2 = inl NothingPending.
Proof.
  intros Hp [Hmin Hc] Hdue.
  pose (s1 := with_host (host_schedule (latency (this s0))) s0).
  assert (Hp1 : pending (host s1) = [latency (this s0)]) by (cbn; rewrite Hp; reflexivity).
  exists s1. eexists. split; [apply run_startup |]. split; [exact Hp1 |].
  split; [apply (fire_done s1 t _ [] Hp1 Hdue); cbn [s1 with_host this]; lia |].
  unfold Done. cbn [s1 with_host host_schedule host this trace pending timesLeft].
  rewrite <- !app_assoc, !schedule_calls_app, !reported_app. cbn.
  rewrite ?app_nil_r. repeat split. lia.
Qed.

Lemma nonpositive_counter_fires_once_witness :
  exists s2,
    run (startup ;; fire 100%N)
        (mkSim boot (mkHelloObject23 (mkEvent "hello") 100%N 0%Z)) = inr (tt, s2) /\
    timesLeft (this s2) = (-1)%Z /\
    pending (host s2) = [].
Proof.
  destruct (nonpositive_counter_fires_once
              (mkSim boot (mkHelloObject23 (mkEvent "hello") 100%N 0%Z)) 100%N)
    as (s1 & s2 & Hs & _ & Hrun & Hc & [_ Hp] & _).
  - reflexivity.
  - vm_compute. split; [reflexivity | discriminate].
  - vm_compute. discriminate.
  - exists s2. split; [| split; [exact Hc | exact Hp]].
    rewrite run_bind, Hs. exact Hrun.
Defined.

(** ** Invariants of the life of the object *)

(** C3: in every state the object of the sources can reach (built by a host
    with nothing pending, activated once, then fired any number of times at
    any times), at most one callback is pending and the counter is between 0
    and its initial value 10; no operation raises or resets the counter:
    activation leaves it, a firing lowers it by one, and it never grows over
    any sequence of firings; and once the counter is at most zero the object is
    in the state Done, where no firing can happen and nothing ever changes
    again, so no further scheduling call is made. *)
Theorem counter_only_decrements_and_done_is_terminal
    (p : HelloObject23Params) (h : Host) (s : Sim) :
  pending h = [] ->
  reachable (HelloObject23_ctor p h) s ->
  (length (pending (host s)) <= 1)%nat /\
  (0 <= timesLeft (this s) <= 10)%Z /\
  (forall s1, run startup s = inr (tt, s1) -> timesLeft (this s1) = timesLeft (this s)) /\
  (forall t s', run (fire t) s = inr (tt, s') ->
                timesLeft (this s') = (timesLeft (this s) - 1)%Z) /\
  (forall s', later s s' -> (timesLeft (this s') <= timesLeft (this s))%Z) /\
  ((timesLeft (this s) <= 0)%Z ->
     Done s /\
     (forall t, run (fire t) s = inl NothingPending) /\
     (forall s', later s s' ->
                 s' = s /\
                 schedule_calls (trace (host s')) = schedule_calls (trace (host s)))).
Proof.
  intros Hp Hreach.
  assert (Hstate : (s = HelloObject23_ctor p h \/ Active s \/ Done s)
                   /\ (0 <= timesLeft (this s) <= 10)%Z).
  { destruct Hreach as [-> | Hrun].
    - split; [left; reflexivity | cbn; lia].
    - destruct (running_state (HelloObject23_ctor p h) s Hp ltac:(cbn; lia) Hrun)
        as [Hst Hrange].
      split; [right; exact Hst | exact Hrange]. }
  destruct Hstate as [Hstate Hrange].
  split; [| split; [exact Hrange | split; [| split; [| split]]]].
  - destruct Hstate as [-> | [[_ [w Hw]] | [_ Hnone]]].
    + cbn. rewrite Hp. apply Nat.le_0_l.
    + rewrite Hw. apply Nat.le_refl.
    + rewrite Hnone. apply Nat.le_0_l.
  - intros s1 Hs. rewrite run_startup in Hs. injection Hs as <-. reflexivity.
  - intros t s' Hfire.
    apply fire_inv in Hfire as (when & rest & _ & _ & _ & Hthis & _).
    rewrite Hthis. reflexivity.
  - intros s'. apply later_counter.
  - intros Hc.
    assert (Hdone : Done s).
    { destruct Hstate as [-> | [[Hpos _] | Hdone]]; [cbn in Hc; lia | lia | exact Hdone]. }
    destruct Hdone as [Hle Hnone].
    split; [split; assumption | split].
    + intros t. apply run_fire_nothing. exact Hnone.
    + intros s' Hlater. rewrite (later_nothing_pending s s' Hnone Hlater).
      split; reflexivity.
Qed.

Lemma counter_only_decrements_and_done_is_terminal_witness :
  exists s,
    run (startup ;; fire_all (firing_times 10 100%N 100%N)) hello_at_boot = inr (tt, s) /\
    Done s /\
    forall t, run (fire t) s = inl NothingPending.
Proof.
  eexists. split; [vm_compute; reflexivity |].
  match goal with
  | |- Done ?s /\ _ =>
      destruct (counter_only_decrements_and_done_is_terminal hello boot s)
        as (_ & _ & _ & _ & _ & Hdone)
  end.
  - reflexivity.
  - right. apply (running_fire_all (firing_times 10 100%N 100%N)).
    vm_compute. reflexivity.
  - destruct Hdone as (Hd & Hfire & _); [cbn; lia |]. split; assumption.
Defined.

(** C10: no operation of the object touches a member other than the counter.
    Construction fixes the delay at 100 and the event handle; [startup] leaves
    every member as it is; an invocation of [processEvent] that returns leaves
    the event handle and the delay as they are; hence in every state the
    object can reach the delay is still 100 and the event handle is the one
    construction made. *)
Theorem only_the_counter_changes (p : HelloObject23Params) (h : Host) :
  let s0 := HelloObject23_ctor p h in
  latency (this s0) = 100%N /\
  event (this s0) = mkEvent (name p) /\
  (forall s s1, run startup s = inr (tt, s1) -> this s1 = this s) /\
  (forall s s', run processEvent s = inr (tt, s') ->
                event (this s') = event (this s) /\
                latency (this s') = latency (this s)) /\
  (forall s, reachable s0 s ->
             latency (this s) = 100%N /\ event (this s) = mkEvent (name p)).
Proof.
  cbv zeta. split; [reflexivity | split; [reflexivity | split; [| split]]].
  - intros s s1 Hs. rewrite run_startup in Hs. injection Hs as <-. reflexivity.
  - intros s s' Hrun.
    destruct (Z.ltb_spec Cxx.INT_MIN (timesLeft (this s))) as [Hc | Hc].
    2:{ rewrite run_processEvent_undefined in Hrun by assumption. discriminate. }
    destruct (Z.leb_spec (timesLeft (this s) - 1) 0) as [Hd | Hd].
    + rewrite run_processEvent_done in Hrun by assumption.
      injection Hrun as <-. split; reflexivity.
    + rewrite run_processEvent_again in Hrun by assumption.
      injection Hrun as <-. split; reflexivity.
  - intros s [-> | Hrun]; [split; reflexivity |].
    apply running_later in Hrun as (s1 & Hs & Hlater).
    rewrite run_startup in Hs. injection Hs as <-.
    apply later_members in Hlater as [Hl He].
    rewrite Hl, He. split; reflexivity.
Qed.

Lemma only_the_counter_changes_witness :
  exists s,
    run (startup ;; fire_all [120; 260; 360]%N) hello_at_boot = inr (tt, s) /\
    latency (this s) = 100%N /\
    timesLeft (this s) = 7%Z.
Proof.
  eexists. split; [vm_compute; reflexivity |].
  split; [| reflexivity].
  match goal with
  | |- latency (this ?s) = _ =>
      destruct (only_the_counter_changes hello boot) as (_ & _ & _ & _ & Hreach);
      destruct (Hreach s) as [Hl _]; [| exact Hl]
  end.
  right. apply (running_fire_all [120; 260; 360]%N). vm_compute. reflexivity.
Defined.

(** * Further properties *)

(** ** What a run leaves on the trace *)

Lemma done_lines_app (tr1 tr2 : list Action) :
  done_lines (tr1 ++ tr2) = (done_lines tr1 + done_lines tr2)%nat.
Proof.
  induction tr1 as [| [when | [| z |]] tr1 IH]; simpl; try rewrite IH; auto.
Qed.

Lemma descending_last (hi : Z) (k : nat) :
  descending hi (S k) = descending hi k ++ [(hi - Z.of_nat (S k))%Z].
Proof.
  revert hi. induction k as [| k IH]; intros hi.
  - cbn. do 2 f_equal.
  - change (descending hi (S (S k))) with ((hi - 1)%Z :: descending (hi - 1) (S k)).
    rewrite IH. cbn [descending app]. do 3 f_equal. lia.
Qed.

Lemma length_descending (hi : Z) (k : nat) : length (descending hi k) = k.
Proof. revert hi. induction k as [| k IH]; intros hi; simpl; [| rewrite IH]; reflexivity. Qed.

(** The log of an activated object that started with a positive counter [N]:
    with the counter at [c], the callback has reported [N - 1], ..., [c];
    the "Done firing!" statement ran once if [c <= 0] and never otherwise; and one
    scheduling call was made per report, plus the pending one. *)
Lemma running_log (s0 s : Sim) :
  pending (host s0) = [] ->
  (0 < timesLeft (this s0))%Z ->
  running s0 s ->
  reported (trace (host s)) =
    reported (trace (host s0))
      ++ descending (timesLeft (this s0))
           (Z.to_nat (timesLeft (this s0) - timesLeft (this s))) /\
  done_lines (trace (host s)) =
    (done_lines (trace (host s0))
     + if (timesLeft (this s) <=? 0)%Z then 1 else 0)%nat /\
  length (schedule_calls (trace (host s))) =
    (length (schedule_calls (trace (host s0)))
     + Z.to_nat (timesLeft (this s0) - timesLeft (this s))
     + if (timesLeft (this s) <=? 0)%Z then 0 else 1)%nat.
Proof.
  intros Hp HN. induction 1 as [s1 Hs | s s' t Hrun (IHr & IHd & IHs) Hfire].
  - rewrite run_startup in Hs. injection Hs as <-.
    cbn [with_host host_schedule host this trace].
    rewrite reported_app, done_lines_app, schedule_calls_app, length_app, Z.sub_diag.
    destruct (Z.leb_spec (timesLeft (this s0)) 0); [lia |].
    cbn. rewrite app_nil_r. repeat split; lia.
  - destruct (running_state s0 s Hp HN Hrun) as [Hstate Hrange].
    apply fire_inv in Hfire as (when & rest & Hps & _ & _ & Hthis & _ & Hcase).
    destruct Hstate as [[Hpos _] | [_ Hnone]]; [| congruence].
    destruct (Z.leb_spec (timesLeft (this s)) 0) as [| _]; [lia |].
    rewrite Hthis. cbn [timesLeft].
    replace (Z.to_nat (timesLeft (this s0) - (timesLeft (this s) - 1)))
      with (S (Z.to_nat (timesLeft (this s0) - timesLeft (this s)))) by lia.
    rewrite descending_last.
    replace (timesLeft (this s0)
             - Z.of_nat (S (Z.to_nat (timesLeft (this s0) - timesLeft (this s)))))%Z
      with (timesLeft (this s) - 1)%Z by lia.
    destruct Hcase as [(Hle & _ & Htr) | (Hgt & _ & Htr)]; rewrite Htr;
      rewrite reported_app, done_lines_app, schedule_calls_app, length_app, IHr, IHd, IHs;
      cbn [reported done_lines schedule_calls length];
      destruct (Z.leb_spec (timesLeft (this s) - 1) 0); try lia;
      rewrite app_assoc; repeat split; lia.
Qed.

(** An activated object has at most one callback pending, whatever its initial
    counter; the pending request is not in the past if activation was not
    late, and its decrement is defined if the initial counter was above the
    least [int]. *)
Lemma running_pending (s0 s : Sim) :
  pending (host s0) = [] ->
  running s0 s ->
  pending (host s) = [] \/
  exists w,
    pending (host s) = [w] /\
    ((now (host s0) <= latency (this s0))%N -> (now (host s) <= w)%N) /\
    ((Cxx.INT_MIN < timesLeft (this s0))%Z -> (Cxx.INT_MIN < timesLeft (this s))%Z).
Proof.
  intros Hp. induction 1 as [s1 Hs | s s' t _ IH Hfire].
  - rewrite run_startup in Hs. injection Hs as <-. right.
    exists (latency (this s0)). cbn. rewrite Hp. repeat split; auto.
  - apply fire_inv in Hfire as (when & rest & Hps & _ & _ & Hthis & Hnow & Hcase).
    destruct IH as [Hnone | (w & Hw & _)]; [congruence |].
    rewrite Hw in Hps. injection Hps as <- <-.
    destruct Hcase as [(_ & Hp' & _) | (Hgt & Hp' & _)]; [left; exact Hp' | right].
    exists (t + latency (this s))%N. rewrite Hp', Hnow, Hthis. cbn [timesLeft app].
    repeat split; intros; unfold Cxx.INT_MIN; lia.
Qed.

(** X1: for an object with initial counter N > 0, in every state it can reach
    the callback has run k times for some k <= N: the counter is N - k, the
    reports are N - 1, ..., N - k in this order, and the scheduling calls made
    are the k of the firings that asked for another one plus the one of
    activation, never more than N in all and exactly N once the counter is
    used up. *)
Theorem callback_runs_at_most_N_times (s0 s : Sim) :
  pending (host s0) = [] ->
  (0 < timesLeft (this s0))%Z ->
  reachable s0 s ->
  exists k : nat,
    (Z.of_nat k <= timesLeft (this s0))%Z /\
    timesLeft (this s) = (timesLeft (this s0) - Z.of_nat k)%Z /\
    reported (trace (host s)) =
      reported (trace (host s0)) ++ descending (timesLeft (this s0)) k /\
    (length (schedule_calls (trace (host s)))
       <= length (schedule_calls (trace (host s0))) + Z.to_nat (timesLeft (this s0)))%nat /\
    ((timesLeft (this s) <= 0)%Z ->
       length (schedule_calls (trace (host s))) =
         (length (schedule_calls (trace (host s0))) + Z.to_nat (timesLeft (this s0)))%nat).
Proof.
  intros Hp HN [-> | Hrun].
  - exists 0%nat. cbn [descending]. rewrite app_nil_r.
    repeat split; try lia.
  - destruct (running_state s0 s Hp HN Hrun) as [_ Hrange].
    destruct (running_log s0 s Hp HN Hrun) as (Hr & _ & Hs).
    exists (Z.to_nat (timesLeft (this s0) - timesLeft (this s))).
    rewrite Hs. destruct (Z.leb_spec (timesLeft (this s)) 0); repeat split; try lia.
    + exact Hr.
    + exact Hr.
Qed.

Lemma callback_runs_at_most_N_times_witness :
  exists s,
    run (startup ;; fire_all [100; 230]%N) hello_at_boot = inr (tt, s) /\
    reported (trace (host s)) = [9; 8]%Z /\
    length (schedule_calls (trace (host s))) = 3%nat.
Proof.
  eexists. split; [vm_compute; reflexivity |].
  match goal with
  | |- reported (trace (host ?s)) = _ /\ _ =>
      destruct (callback_runs_at_most_N_times hello_at_boot s) as (k & _ & _ & _ & _)
  end.
  - reflexivity.
  - reflexivity.
  - right. apply (running_fire_all [100; 230]%N). vm_compute. reflexivity.
  - split; reflexivity.
Defined.

(** X2: for an object with initial counter N > 0, in every state it can reach
    the statement [DPRINTF(HelloExample, "Done firing!\n")] has been executed
    exactly once if the counter is used up and not at all otherwise: the
    statement that marks the end of the countdown runs once and never again. *)
Theorem done_firing_statement_runs_once (s0 s : Sim) :
  pending (host s0) = [] ->
  (0 < timesLeft (this s0))%Z ->
  reachable s0 s ->
  ((0 < timesLeft (this s))%Z ->
     done_lines (trace (host s)) = done_lines (trace (host s0))) /\
  ((timesLeft (this s) <= 0)%Z ->
     done_lines (trace (host s)) = S (done_lines (trace (host s0)))).
Proof.
  intros Hp HN [-> | Hrun].
  - split; [reflexivity | lia].
  - destruct (running_log s0 s Hp HN Hrun) as (_ & Hd & _).
    rewrite Hd. destruct (Z.leb_spec (timesLeft (this s)) 0); split; lia.
Qed.

Lemma done_firing_statement_runs_once_witness :
  exists s,
    run (startup ;; simulate 10) hello_at_boot = inr (tt, s) /\
    done_lines (trace (host s)) = 1%nat.
Proof.
  eexists. split; [vm_compute; reflexivity |].
  match goal with
  | |- done_lines (trace (host ?s)) = _ =>
      destruct (done_firing_statement_runs_once hello_at_boot s) as (_ & Hdone)
  end.
  - reflexivity.
  - reflexivity.
  - right. apply (running_fire_all (firing_times 10 100%N 100%N)). vm_compute. reflexivity.
  - apply Hdone. cbn. lia.
Defined.

(** ** Safety of the decrement and of the requested times *)

(** X3: for an object whose initial counter is above the least [int] (the 10
    of the sources is), no state it can reach makes the decrement of the
    callback overflow: whenever a callback is pending, every delivery of it at
    or after its requested time returns. *)
Theorem decrement_never_overflows (s0 s : Sim) (t when : Tick) (rest : list Tick) :
  pending (host s0) = [] ->
  (Cxx.INT_MIN < timesLeft (this s0))%Z ->
  reachable s0 s ->
  pending (host s) = when :: rest ->
  (when <= t)%N ->
  exists s',
    run (fire t) s = inr (tt, s') /\
    timesLeft (this s') = (timesLeft (this s) - 1)%Z.
Proof.
  intros Hp HN [-> | Hrun] Hps Hdue; [congruence |].
  destruct (running_pending s0 s Hp Hrun) as [Hnone | (w & Hw & _ & Hc)]; [congruence |].
  specialize (Hc HN).
  destruct (Z.leb_spec (timesLeft (this s) - 1) 0) as [Hd | Hd].
  - eexists. split; [apply (fire_done s t when rest Hps Hdue Hc Hd) | reflexivity].
  - eexists. split; [apply (fire_again s t when rest Hps Hdue Hd) | reflexivity].
Qed.

Lemma decrement_never_overflows_witness :
  exists s',
    run (startup ;; fire 100%N ;; fire 260%N) hello_at_boot = inr (tt, s') /\
    timesLeft (this s') = 8%Z.
Proof.
  destruct (decrement_never_overflows hello_at_boot
              (mkSim (mkHost 100%N [200%N]
                        [Dprintf CreatedTheHelloObject; Schedule 100%N;
                         Dprintf (HelloWorldProcessing 9); Schedule 200%N])
                     (mkHelloObject23 (mkEvent "hello") 100%N 9%Z))
              260%N 200%N [])
    as (s' & Hrun & Hc).
  - reflexivity.
  - vm_compute. reflexivity.
  - right. apply (running_fire_all [100%N]). vm_compute. reflexivity.
  - reflexivity.
  - vm_compute. discriminate.
  - exists s'. split; [| exact Hc]. rewrite <- Hrun. vm_compute. reflexivity.
Defined.

(** X4: if activation happens at a host time that is at most the delay (time
    zero, for one), then in every state the object can reach the pending
    request is for the current host time or later: the object never asks for
    a time that has passed. *)
Theorem never_schedules_in_the_past (s0 s : Sim) (w : Tick) :
  pending (host s0) = [] ->
  (now (host s0) <= latency (this s0))%N ->
  reachable s0 s ->
  In w (pending (host s)) ->
  (now (host s) <= w)%N.
Proof.
  intros Hp Hnow [-> | Hrun] Hin.
  - rewrite Hp in Hin. destruct Hin.
  - destruct (running_pending s0 s Hp Hrun) as [Hnone | (w' & Hw & Hle & _)].
    + rewrite Hnone in Hin. destruct Hin.
    + rewrite Hw in Hin. destruct Hin as [<- | []]. apply Hle. exact Hnow.
Qed.

Lemma never_schedules_in_the_past_witness :
  exists s,
    run (startup ;; fire_all [100; 230]%N) hello_at_boot = inr (tt, s) /\
    pending (host s) = [330%N] /\
    (now (host s) <= 330)%N.
Proof.
  eexists. split; [vm_compute; reflexivity |]. split; [reflexivity |].
  match goal with
  | |- (now (host ?s) <= _)%N =>
      apply (never_schedules_in_the_past hello_at_boot s 330%N)
  end.
  - reflexivity.
  - vm_compute. discriminate.
  - right. apply (running_fire_all [100; 230]%N). vm_compute. reflexivity.
  - left. reflexivity.
Defined.

(** ** The times of a countdown *)

Lemma firing_times_shift (n : nat) (w d : Tick) :
  map (fun t => (t + d)%N) (firing_times n w d) = firing_times n (w + d)%N d.
Proof.
  revert w. induction n as [| n IH]; intros w; simpl; [| rewrite IH]; reflexivity.
Qed.

Lemma firing_times_multiples (n m : nat) (d : Tick) :
  firing_times n (N.of_nat m * d)%N d = map (fun k => (N.of_nat k * d)%N) (seq m n).
Proof.
  revert m. induction n as [| n IH]; intros m; [reflexivity |].
  cbn [firing_times seq map]. f_equal.
  replace (N.of_nat m * d + d)%N with (N.of_nat (S m) * d)%N by lia.
  apply IH.
Qed.

Lemma on_time_last (d w : Tick) (ts : list Tick) (t : Tick) :
  on_time d w (ts ++ [t]) = true -> (w + N.of_nat (length ts) * d <= t)%N.
Proof.
  revert w. induction ts as [| t1 ts IH]; intros w Hon.
  - cbn in Hon. rewrite andb_true_r in Hon. apply N.leb_le in Hon. cbn. lia.
  - cbn [app on_time] in Hon. apply andb_prop in Hon as [Hdue Hon].
    apply N.leb_le in Hdue. apply IH in Hon. cbn [length]. lia.
Qed.

(** X6: an object with initial counter N > 0 and delay D that is activated at
    a host time of at most D (time zero, for one), under a host that delivers
    every callback at its requested time, asks for the times D, 2 D, ..., N D
    and for no other; its N-th and last firing runs at host time N D, which
    is not before the time of activation, and nothing is pending afterwards. *)
Theorem punctual_countdown_times (s0 : Sim) :
  pending (host s0) = [] ->
  (0 < timesLeft (this s0))%Z ->
  (now (host s0) <= latency (this s0))%N ->
  exists s',
    run (startup ;; simulate (Z.to_nat (timesLeft (this s0)))) s0 = inr (tt, s') /\
    schedule_calls (trace (host s')) =
      schedule_calls (trace (host s0))
        ++ map (fun k => (N.of_nat k * latency (this s0))%N)
               (seq 1 (Z.to_nat (timesLeft (this s0)))) /\
    now (host s') = (N.of_nat (Z.to_nat (timesLeft (this s0))) * latency (this s0))%N /\
    (now (host s0) <= now (host s'))%N /\
    pending (host s') = [].
Proof.
  intros Hp HN Hnow. pose (d := latency (this s0)).
  pose (s1 := with_host (host_schedule d) s0).
  assert (Hp1 : pending (host s1) = [d]) by (cbn; rewrite Hp; reflexivity).
  destruct (Z.to_nat (timesLeft (this s0))) as [| n] eqn:Hn; [lia |].
  rewrite run_bind, run_startup. fold d s1.
  rewrite (simulate_as_fire_all (S n) s1 d Hp1).
  change (latency (this s1)) with d.
  assert (Hon := on_time_firing_times (S n) d d).
  rewrite firing_times_last in Hon |- *.
  eexists. split.
  - apply (fire_all_countdown _ _ s1 d Hp1 Hon).
    rewrite length_firing_times. cbn [s1 with_host this]. lia.
  - cbn [host this trace now pending s1 with_host host_schedule latency].
    fold d. rewrite <- !app_assoc, !schedule_calls_app, schedule_calls_again.
    cbn [schedule_calls done_trace app]. rewrite app_nil_r, firing_times_shift.
    change (d :: firing_times n (d + d)%N d) with (firing_times (S n) d d).
    replace d with (N.of_nat 1 * d)%N at 1 by lia.
    rewrite firing_times_multiples. fold d in Hnow. repeat split; nia.
Qed.

Lemma punctual_countdown_times_witness :
  exists s',
    run (startup ;; simulate 3)
        (mkSim (mkHost 5%N [] []) (mkHelloObject23 (mkEvent "hello") 7%N 3%Z))
      = inr (tt, s') /\
    schedule_calls (trace (host s')) = [7; 14; 21]%N /\
    now (host s') = 21%N.
Proof.
  destruct (punctual_countdown_times
              (mkSim (mkHost 5%N [] []) (mkHelloObject23 (mkEvent "hello") 7%N 3%Z)))
    as (s' & Hrun & Hcalls & Hnow & _).
  - reflexivity.
  - reflexivity.
  - vm_compute. discriminate.
  - exists s'. split; [exact Hrun | split; [exact Hcalls | exact Hnow]].
Defined.

(** X7: however the host times its deliveries, as long as none is early, the
    countdown of an object with initial counter N > 0 and delay D is not over
    before host time N D: the last of its N firings runs at that time or
    later. *)
Theorem countdown_lasts_N_latencies (s0 : Sim) (ts : list Tick) :
  pending (host s0) = [] ->
  (0 < timesLeft (this s0))%Z ->
  Z.of_nat (length ts) = timesLeft (this s0) ->
  on_time (latency (this s0)) (latency (this s0)) ts = true ->
  exists s',
    run (startup ;; fire_all ts) s0 = inr (tt, s') /\
    timesLeft (this s') = 0%Z /\
    (N.of_nat (length ts) * latency (this s0) <= now (host s'))%N.
Proof.
  intros Hp HN Hlen Hon.
  destruct (exists_last (l := ts)) as (ts' & t & ->); [intros ->; simpl in Hlen; lia |].
  rewrite length_app in Hlen |- *. cbn [length] in Hlen |- *.
  pose (s1 := with_host (host_schedule (latency (this s0))) s0).
  rewrite run_bind, run_startup. fold s1.
  eexists. split.
  - apply (fire_all_countdown ts' t s1 (latency (this s0)));
      [cbn; rewrite Hp; reflexivity | exact Hon | cbn [s1 with_host this]; lia].
  - cbn [host this now timesLeft]. split; [reflexivity |].
    apply on_time_last in Hon. lia.
Qed.

Lemma countdown_lasts_N_latencies_witness :
  exists s',
    run (startup ;; fire_all [150; 300]%N)
        (mkSim boot (mkHelloObject23 (mkEvent "hello") 100%N 2%Z)) = inr (tt, s') /\
    (200 <= now (host s'))%N.
Proof.
  destruct (countdown_lasts_N_latencies
              (mkSim boot (mkHelloObject23 (mkEvent "hello") 100%N 2%Z)) [150; 300]%N)
    as (s' & Hrun & _ & Hnow).
  - reflexivity.
  - reflexivity.
  - reflexivity.
  - reflexivity.
  - exists s'. split; [exact Hrun | exact Hnow].
Defined.
